(** * The in-memory data node of taipy

    A shallow embedding of [src/taipy/core/data/in_memory.py]: the
    process-wide dictionary [in_memory_storage] and the class
    [InMemoryDataNode] (constructor, [_read], [_write], the two property
    hooks).  The base class [DataNode] lives in [data_node.py], which is
    not among the sources at hand; the three methods of it that the
    constructor reaches ([__init__], [write], [read]) are modelled from
    the specification and marked as such. *)

From Stdlib Require Import ZArith.
From stdpp Require Import base option strings gmap list.

Open Scope Z_scope.
Open Scope string_scope.

Set Warnings "-register-all".

(** ** Python values *)

(** The storage is a [Dict[str, Any]]: the values are unconstrained.  The
    fragment of [Any] below is enough to tell [None] from the rest. *)
Inductive pyval : Type :=
| PNone
| PBool (b : bool)
| PInt (z : Z)
| PStr (s : string)
| PList (l : list pyval).

(** [v is None] *)
Definition is_None (v : pyval) : bool :=
  match v with PNone => true | _ => false end.

(** A [dict] with string keys. *)
Abbreviation dict := (gmap string pyval).

(** [d.get(k)] and [d.pop(k, None)] both answer [None] for a missing key. *)
Definition dict_get (d : dict) (k : string) : pyval :=
  default PNone (d !! k).

(** [d.pop(k, None)]: the value returned and the dictionary left behind. *)
Definition dict_pop (d : dict) (k : string) : pyval * dict :=
  (dict_get d k, delete k d).

(** [k in d] *)
Definition dict_contains (d : dict) (k : string) : bool :=
  match d !! k with Some _ => true | None => false end.

(** Truth value of an [Optional[str]]: [None] and the empty string are
    the two false ones. *)
Definition truthy (s : option string) : bool :=
  match s with
  | None => false
  | Some s => negb (String.eqb s "")
  end.

(** ** The process *)

Abbreviation DataNodeId := string (only parsing).

(** What a call can observe and change: the module-level dictionary of
    [in_memory.py], and the state of the collaborators it calls out to. *)
Record World : Type := mkWorld {
  in_memory_storage : dict;     (* in_memory_storage: Dict[str, Any] = {} *)
  latest_version : string;      (* what the version manager reports now *)
  version_lookups : nat;        (* calls to _get_latest_version() so far *)
  clock : Z;                    (* datetime.now() *)
  ids_generated : nat           (* identifiers handed out so far *)
}.

Definition set_storage (f : dict → dict) (w : World) : World :=
  mkWorld (f (in_memory_storage w)) (latest_version w) (version_lookups w)
          (clock w) (ids_generated w).

Inductive exn : Type :=
| ConfigurationError
| BackendUnavailable.

Inductive outcome (A : Type) : Type :=
| Return (a : A)
| Raise (e : exn).
Arguments Return {A} a.
Arguments Raise {A} e.

(** A computation of the process: it reads and updates the world, and
    ends with a value or with an exception.  Changes made before an
    exception stay. *)
Definition Py (A : Type) : Type := World → outcome A * World.

#[global] Instance Py_ret : MRet Py := λ A a w, (Return a, w).

#[global] Instance Py_bind : MBind Py := λ A B f m w,
  match m w with
  | (Return a, w') => f a w'
  | (Raise e, w') => (Raise e, w')
  end.

Definition raise {A : Type} (e : exn) : Py A := λ w, (Raise e, w).

Definition gets {A : Type} (f : World → A) : Py A := λ w, (Return (f w), w).

Definition modify (f : World → World) : Py unit := λ w, (Return tt, f w).

(** [_VersionManagerFactory._build_manager()._get_latest_version()] *)
Definition _get_latest_version : Py string := λ w,
  (Return (latest_version w),
   mkWorld (in_memory_storage w) (latest_version w) (S (version_lookups w))
           (clock w) (ids_generated w)).

(** [version or rhs]: the left operand when it is true, and only
    otherwise is the right operand evaluated. *)
Definition or_else (version : option string) (rhs : Py string) : Py string :=
  match version with
  | Some v => if truthy (Some v) then mret v else rhs
  | None => rhs
  end.

(** [datetime.now()] *)
Definition datetime_now : Py Z := gets clock.

(** ** Collaborators outside the core *)

(** The scope enumeration, the validation of configuration identifiers
    and the making of fresh identifiers belong to packages that are not
    part of the sources; they are taken as given. *)
Class Collaborators : Type := {
  Scope : Type;
  valid_config_id : string → bool;
  new_id : string → nat → DataNodeId;   (* for a config_id, the n-th fresh id *)
  default_name : string → string        (* the name derived from a config_id *)
}.

(** ** The base class *)

Module DataNode.
Section DataNode.
Context `{Collaborators}.

(** Modelled from the spec: the Edit Record of [common/alias.py] (not
    among the sources), one log entry per write: a timestamp, an optional
    job reference, optional free-form metadata. *)
Record Edit : Type := mkEdit {
  timestamp : Z;
  job_id : option string;
  edit_metadata : dict
}.

(** Modelled from the spec: the attributes of a data node (class
    [DataNode] of [data_node.py], not among the sources), as section 3 of
    the specification and the docstring of [InMemoryDataNode] list them. *)
Record t : Type := mkNode {
  config_id : string;
  scope : Scope;
  id : DataNodeId;
  name : string;
  owner_id : option string;
  parent_ids : gset string;
  last_edit_date : option Z;
  edits : list Edit;
  version : string;
  validity_period : option Z;
  edit_in_progress : bool;
  properties : dict
}.

(** A new identifier for [config_id]; the next one will differ. *)
Definition fresh_id (config_id : string) : Py DataNodeId := λ w,
  (Return (new_id config_id (ids_generated w)),
   mkWorld (in_memory_storage w) (latest_version w) (version_lookups w)
           (clock w) (S (ids_generated w))).

(** Modelled from the spec: [DataNode.__init__] of [data_node.py] (not
    among the sources).  An invalid [config_id] fails with
    [ConfigurationError]; an absent [id] is generated; an absent [name]
    is derived from [config_id]; absent [parent_ids] and [edits] are
    empty; the version it is handed and the keyword arguments are kept as
    they come, the latter as the property map.  Every other input is
    accepted (section 4.1 of the specification).  The resolution of an
    absent version, which that section also describes, is what line 87 of
    [in_memory.py] does before it calls this constructor. *)
Definition __init__
  (config_id : string) (scope : Scope) (id : option DataNodeId)
  (name owner_id : option string) (parent_ids : option (gset string))
  (last_edit_date : option Z) (edits : option (list Edit))
  (version : string) (validity_period : option Z)
  (edit_in_progress : bool) (kwargs : dict) : Py t :=
  if valid_config_id config_id then
    id ← match id with
         | Some i => mret i
         | None => fresh_id config_id
         end;
    mret (mkNode config_id scope id
                 (default (default_name config_id) name)
                 owner_id (default ∅ parent_ids) last_edit_date
                 (default [] edits) version validity_period
                 edit_in_progress kwargs)
  else raise ConfigurationError.

(** The identifier that a construction begun in [w] gives the node: the
    one supplied, or else the next fresh one. *)
Definition id_at (config_id : string) (id : option DataNodeId) (w : World)
  : DataNodeId :=
  default (new_id config_id (ids_generated w)) id.

(** The node with one more edit record, made at [now]. *)
Definition track_edit (self : t) (now : Z) (job : option string)
  (metadata : dict) : t :=
  mkNode (config_id self) (scope self) (id self) (name self)
         (owner_id self) (parent_ids self) (Some now)
         (edits self ++ [mkEdit now job metadata])%list (version self)
         (validity_period self) (edit_in_progress self) (properties self).

(** Modelled from the spec: [DataNode.write] of [data_node.py] (not among
    the sources).  It hands the data to the backend's [_write], then
    appends an edit record bearing the current time and the metadata, and
    sets [last_edit_date]; when the backend raises, neither happens.
    [backend_write] is the [_write] of the concrete class. *)
Definition write (backend_write : t → pyval → Py unit)
  (self : t) (data : pyval) (job : option string) (metadata : dict) : Py t :=
  backend_write self data;;
  now ← datetime_now;
  mret (track_edit self now job metadata).

(** Modelled from the spec: [DataNode.read] of [data_node.py] (not among
    the sources).  It returns the backend's current value for this node;
    [backend_read] is the [_read] of the concrete class. *)
Definition read (backend_read : t → Py pyval) (self : t) : Py pyval :=
  backend_read self.

End DataNode.
End DataNode.

(** ** The in-memory data node *)

Module InMemoryDataNode.
Section InMemoryDataNode.
Context `{Collaborators}.

Definition __STORAGE_TYPE : string := "in_memory".
Definition __DEFAULT_DATA_VALUE : string := "default_data".
Definition _REQUIRED_PROPERTIES : list string := [].

Definition storage_type : string := __STORAGE_TYPE.

(** [return in_memory_storage.get(self.id)] *)
Definition _read (self : DataNode.t) : Py pyval :=
  gets (λ w, dict_get (in_memory_storage w) (DataNode.id self)).

(** [in_memory_storage[self.id] = data] *)
Definition _write (self : DataNode.t) (data : pyval) : Py unit :=
  modify (set_storage (insert (DataNode.id self) data)).

Definition _serialize_datanode_properties (datanode_properties : dict) : dict :=
  datanode_properties.

Definition _deserialize_datanode_model_properties
  (datanode_model_properties : dict) : dict :=
  datanode_model_properties.

(** [self.write(...)] and [self.read()] on an in-memory node: the
    inherited methods, dispatching to [_write] and [_read] above. *)
Definition write := DataNode.write _write.
Definition read := DataNode.read _read.

(** The constructor, lines 75 to 93.  The arguments of the call to the
    base constructor are evaluated first, so the version manager is asked
    (when it is) before the base constructor runs. *)
Definition __init__
  (config_id : string) (scope : Scope) (id : option DataNodeId)
  (name owner_id : option string) (parent_ids : option (gset string))
  (last_edit_date : option Z) (edits : option (list DataNode.Edit))
  (version : option string) (validity_period : option Z)
  (edit_in_progress : bool) (properties : option dict) : Py DataNode.t :=
  let properties := default ∅ properties in
  let '(default_value, properties) := dict_pop properties __DEFAULT_DATA_VALUE in
  version ← or_else version _get_latest_version;
  self ← DataNode.__init__ config_id scope id name owner_id parent_ids
           last_edit_date edits version validity_period edit_in_progress
           properties;
  stored ← gets (λ w, dict_contains (in_memory_storage w) (DataNode.id self));
  if negb (is_None default_value) && negb stored
  then write self default_value None ∅
  else mret self.

End InMemoryDataNode.
End InMemoryDataNode.

(** ** Callers *)

Module Callers.
Section Callers.
Context `{Collaborators}.



End Callers.
End Callers.

(** ** The fixtures of the test suite *)

(** [tests/conftest.py] builds its data nodes with the configuration
    name ["input_ds"], the scope [Scope.SCENARIO], the identifier
    ["id_uio"], the name ["my name"], the owner ["parent_id"] and the
    properties [{"default_data": "In memory Data Source"}].  The same
    values serve here as concrete inputs. *)
Module Fixtures.

Inductive scope : Type := PIPELINE | SCENARIO.

(** Letters, digits and the underscore. *)
Definition identifier_char (c : Ascii.ascii) : bool :=
  let n := Ascii.nat_of_ascii c in
  ((48 <=? n) && (n <=? 57) || (65 <=? n) && (n <=? 90)
   || (97 <=? n) && (n <=? 122) || (n =? 95))%nat.

Fixpoint all_chars (p : Ascii.ascii → bool) (s : string) : bool :=
  match s with
  | EmptyString => true
  | String c s' => p c && all_chars p s'
  end.

Definition is_identifier (s : string) : bool :=
  negb (String.eqb s "") && all_chars identifier_char s.

Fixpoint tally (n : nat) : string :=
  match n with
  | O => ""
  | S n' => "i" +:+ tally n'
  end.

#[export] Instance collaborators : Collaborators := {|
  Scope := scope;
  valid_config_id := is_identifier;
  new_id := λ config_id n, "DATANODE_" +:+ config_id +:+ "_" +:+ tally n;
  default_name := λ config_id, config_id
|}.

(** A process that has just started: nothing stored, nothing asked. *)
Definition fresh_world : World := mkWorld ∅ "1.0" 0 1700000000 0.

(** A process in which ["id_uio"] already holds data. *)
Definition used_world : World :=
  mkWorld {[ "id_uio" := PStr "earlier" ]} "1.0" 0 1700000000 0.

Definition default_props : dict :=
  {[ "default_data" := PStr "In memory Data Source" ]}.

Definition none_props : dict := {[ "default_data" := PNone ]}.

(** [InMemoryDataNode("input_ds", Scope.SCENARIO, "id_uio", "my name",
    "parent_id", edits=..., version=..., properties=...)] *)
Definition construct (edits : option (list DataNode.Edit))
  (version : option string) (properties : option dict) : Py DataNode.t :=
  InMemoryDataNode.__init__ "input_ds" SCENARIO (Some "id_uio")
    (Some "my name") (Some "parent_id") None None edits version None false
    properties.

(** A node as the constructor leaves it when nothing is seeded. *)
Definition input_ds : DataNode.t :=
  DataNode.mkNode "input_ds" SCENARIO "id_uio" "my name" (Some "parent_id")
    ∅ None [] "1.0" None false ∅.

Definition output_ds : DataNode.t :=
  DataNode.mkNode "output_ds" SCENARIO "id_out" "my name" (Some "parent_id")
    ∅ None [] "1.0" None false ∅.

(** The two data sources that [__default_task] builds (lines 88 to 104
    of [tests/conftest.py]), one after the other, each from a dictionary
    literal of its own: the same identifier and the same default.  The
    [Task] made of them is not part of the sources. *)
Definition default_task_sources : Py (DataNode.t * DataNode.t) :=
  input_ds ← InMemoryDataNode.__init__ "input_ds" SCENARIO (Some "id_uio")
               (Some "my name") (Some "parent_id") None None None None None
               false (Some default_props);
  output_ds ← InMemoryDataNode.__init__ "output_ds" SCENARIO (Some "id_uio")
                (Some "my name") (Some "parent_id") None None None None None
                false (Some default_props);
  mret (input_ds, output_ds).

(** A dictionary with a default and one more property. *)
Definition csv_props : dict :=
  {[ "default_data" := PInt 42; "path" := PStr "data.csv" ]}.

(** A second node object for the identifier ["id_uio"]. *)
Definition reloaded_ds : DataNode.t :=
  DataNode.mkNode "input_ds" PIPELINE "id_uio" "another name" None
    ∅ None [] "2.0" None true ∅.

End Fixtures.

(** * Properties *)

(** ** Running computations *)

Lemma bind_Return {A B : Type} (m : Py A) (f : A → Py B) (w w' : World) (a : A) :
  m w = (Return a, w') → (m ≫= f) w = f a w'.
Proof. intros Hm. unfold mbind, Py_bind. by rewrite Hm. Qed.

(** [version or _get_latest_version()] always yields a string; the
    manager is asked exactly when the left operand is false. *)
Lemma or_else_latest (version : option string) (w : World) :
  or_else version _get_latest_version w =
  if truthy version
  then (Return (default "" version), w)
  else (Return (latest_version w),
        mkWorld (in_memory_storage w) (latest_version w)
                (S (version_lookups w)) (clock w) (ids_generated w)).
Proof.
  destruct version as [v|]; simpl; [|reflexivity].
  destruct (String.eqb v ""); reflexivity.
Qed.

Lemma truthy_Some (v : string) : v ≠ "" → truthy (Some v) = true.
Proof.
  intros Hv. simpl. destruct (String.eqb_spec v ""); [contradiction|reflexivity].
Qed.

Lemma dict_contains_None (d : dict) (k : string) :
  d !! k = None → dict_contains d k = false.
Proof. intros Hk. unfold dict_contains. by rewrite Hk. Qed.

Lemma dict_contains_Some (d : dict) (k : string) :
  is_Some (d !! k) → dict_contains d k = true.
Proof. intros [v Hk]. unfold dict_contains. by rewrite Hk. Qed.

Lemma is_None_false (v : pyval) : v ≠ PNone → is_None v = false.
Proof. by destruct v. Qed.

Section Construction.
Context `{Collaborators}.
Variables (config_id : string) (scope : Scope) (id : option DataNodeId).
Variables (name owner_id : option string) (parent_ids : option (gset string)).
Variables (last_edit_date : option Z) (edits : option (list DataNode.Edit)).
Variables (validity_period : option Z) (edit_in_progress : bool).

(** The construction under study, with the arguments the claims vary. *)
#[local] Abbreviation construct version properties :=
  (InMemoryDataNode.__init__ config_id scope id name owner_id parent_ids
     last_edit_date edits version validity_period edit_in_progress properties).

#[local] Abbreviation node_id w := (DataNode.id_at config_id id w).

(** The base constructor succeeds on a valid [config_id]; it leaves the
    storage, the version manager and the clock alone. *)
Lemma base_init_valid (version : string) (kwargs : dict) (w : World) :
  valid_config_id config_id = true →
  ∃ self w',
    DataNode.__init__ config_id scope id name owner_id parent_ids
      last_edit_date edits version validity_period edit_in_progress kwargs w
    = (Return self, w')
    ∧ DataNode.id self = node_id w
    ∧ DataNode.edits self = default [] edits
    ∧ DataNode.version self = version
    ∧ DataNode.properties self = kwargs
    ∧ in_memory_storage w' = in_memory_storage w
    ∧ latest_version w' = latest_version w
    ∧ version_lookups w' = version_lookups w
    ∧ clock w' = clock w.
Proof.
  intros Hvalid. unfold DataNode.__init__. rewrite Hvalid.
  destruct id as [i|]; eexists _, _; (split; [reflexivity|]); simpl; done.
Qed.

(** The constructor up to its last statement: on a valid [config_id] the
    base constructor has built [self0], and what remains is the guarded
    seeding write. *)
Lemma init_run (version : option string) (properties : option dict) (w : World) :
  valid_config_id config_id = true →
  ∃ self0 w0,
    DataNode.id self0 = node_id w
    ∧ DataNode.edits self0 = default [] edits
    ∧ DataNode.version self0 =
        (if truthy version then default "" version else latest_version w)
    ∧ DataNode.properties self0 =
        delete InMemoryDataNode.__DEFAULT_DATA_VALUE (default ∅ properties)
    ∧ in_memory_storage w0 = in_memory_storage w
    ∧ version_lookups w0 =
        (if truthy version then version_lookups w else S (version_lookups w))
    ∧ clock w0 = clock w
    ∧ construct version properties w =
        let default_value :=
          dict_get (default ∅ properties) InMemoryDataNode.__DEFAULT_DATA_VALUE in
        if negb (is_None default_value)
           && negb (dict_contains (in_memory_storage w) (node_id w))
        then InMemoryDataNode.write self0 default_value None ∅ w0
        else (Return self0, w0).
Proof.
  intros Hvalid. unfold InMemoryDataNode.__init__, dict_pop.
  pose proof (or_else_latest version w) as Hv.
  destruct (truthy version).
  - destruct (base_init_valid (default "" version)
                (delete InMemoryDataNode.__DEFAULT_DATA_VALUE (default ∅ properties))
                w Hvalid)
      as (self0 & w0 & Hrun & Hid & Hed & Hver & Hprops & Hsto & Hlat & Hlook & Hclk).
    exists self0, w0. repeat (split; [assumption|]).
    rewrite (bind_Return _ _ _ _ _ Hv), (bind_Return _ _ _ _ _ Hrun).
    unfold mbind, Py_bind, gets. rewrite Hsto, Hid.
    by destruct (negb _ && negb _).
  - set (w1 := mkWorld _ _ _ _ _) in Hv.
    destruct (base_init_valid (latest_version w)
                (delete InMemoryDataNode.__DEFAULT_DATA_VALUE (default ∅ properties))
                w1 Hvalid)
      as (self0 & w0 & Hrun & Hid & Hed & Hver & Hprops & Hsto & Hlat & Hlook & Hclk).
    exists self0, w0. repeat (split; [assumption|]).
    rewrite (bind_Return _ _ _ _ _ Hv), (bind_Return _ _ _ _ _ Hrun).
    unfold mbind, Py_bind, gets. rewrite Hsto, Hid.
    by destruct (negb _ && negb _).
Qed.

(** On an invalid [config_id] the constructor raises, and the storage
    is the one it found. *)
Lemma init_invalid (version : option string) (properties : option dict) (w : World) :
  valid_config_id config_id = false →
  ∃ w', construct version properties w = (Raise ConfigurationError, w')
        ∧ in_memory_storage w' = in_memory_storage w.
Proof.
  intros Hbad. unfold InMemoryDataNode.__init__, dict_pop.
  pose proof (or_else_latest version w) as Hv.
  destruct (truthy version);
    rewrite (bind_Return _ _ _ _ _ Hv);
    unfold mbind, Py_bind, DataNode.__init__; rewrite Hbad;
    by eexists.
Qed.

(** The inherited [write] on an in-memory node: it always returns, the
    entry of the node is replaced, one edit record is appended. *)
Lemma write_run (self : DataNode.t) (data : pyval) (job : option string)
  (metadata : dict) (w : World) :
  InMemoryDataNode.write self data job metadata w =
  (Return (DataNode.track_edit self (clock w) job metadata),
   set_storage (insert (DataNode.id self) data) w).
Proof. reflexivity. Qed.

(** C1 (amended): when the properties hold ["default_data"] with a value
    [V] that is not [None] and the storage has no entry for the node's
    identifier, construction writes [V]: the storage gains exactly that
    entry, [read()] right after construction returns [V], and the edits
    are the supplied ones (none by default) followed by one new record,
    so one record when none was supplied. *)
Theorem seeding_on_fresh_identity
  (version : option string) (props : dict) (V : pyval) (w : World) :
  valid_config_id config_id = true →
  props !! "default_data" = Some V →
  is_None V = false →
  in_memory_storage w !! node_id w = None →
  ∃ self w',
    construct version (Some props) w = (Return self, w')
    ∧ DataNode.id self = node_id w
    ∧ in_memory_storage w' = <[node_id w := V]> (in_memory_storage w)
    ∧ InMemoryDataNode.read self w' = (Return V, w')
    ∧ DataNode.edits self
      = (default [] edits ++ [DataNode.mkEdit (clock w) None ∅])%list
    ∧ length (DataNode.edits self) = S (length (default [] edits)).
Proof.
  intros Hvalid Hprops HV Hfree.
  destruct (init_run version (Some props) w Hvalid)
    as (self0 & w0 & Hid & Hed & _ & _ & Hsto & _ & Hclk & Hrun).
  simpl in Hrun. unfold dict_get in Hrun.
  change InMemoryDataNode.__DEFAULT_DATA_VALUE with "default_data" in Hrun.
  rewrite Hprops in Hrun. simpl in Hrun.
  rewrite HV, (dict_contains_None _ _ Hfree), write_run in Hrun. simpl in Hrun.
  eexists _, _. split; [exact Hrun|]. simpl.
  rewrite Hid, Hsto, Hed, Hclk. repeat split.
  - unfold InMemoryDataNode.read, DataNode.read, InMemoryDataNode._read, gets,
      dict_get.
    simpl. by rewrite Hid, lookup_insert_eq.
  - rewrite length_app. simpl. lia.
Qed.

(** C2: when the properties hold ["default_data"] and the storage already
    has an entry for the node's identifier, construction writes nothing:
    the storage is the one it found, the entry still holds the value it
    held, and the edits are the supplied ones. *)
Theorem no_seeding_over_existing_entry
  (version : option string) (props : dict) (V old : pyval) (w : World) :
  valid_config_id config_id = true →
  props !! "default_data" = Some V →
  in_memory_storage w !! node_id w = Some old →
  ∃ self w',
    construct version (Some props) w = (Return self, w')
    ∧ DataNode.id self = node_id w
    ∧ in_memory_storage w' = in_memory_storage w
    ∧ in_memory_storage w' !! DataNode.id self = Some old
    ∧ DataNode.edits self = default [] edits.
Proof.
  intros Hvalid Hprops Hused.
  destruct (init_run version (Some props) w Hvalid)
    as (self0 & w0 & Hid & Hed & _ & _ & Hsto & _ & _ & Hrun).
  simpl in Hrun. rewrite (dict_contains_Some _ _ (mk_is_Some _ _ Hused)) in Hrun.
  rewrite andb_false_r in Hrun.
  exists self0, w0. by rewrite Hid, Hsto.
Qed.

(** C3 (amended): a supplied version that is not the empty string becomes
    the node's version and the version manager is not asked; when the
    version is absent or the empty string the manager is asked exactly
    once and the node's version is what it reports. *)
Theorem version_resolution
  (version : option string) (properties : option dict) (w : World) :
  valid_config_id config_id = true →
  ∃ self w',
    construct version properties w = (Return self, w')
    ∧ ((∃ v, version = Some v ∧ v ≠ ""
             ∧ DataNode.version self = v
             ∧ version_lookups w' = version_lookups w)
       ∨ ((version = None ∨ version = Some "")
          ∧ DataNode.version self = latest_version w
          ∧ version_lookups w' = S (version_lookups w))).
Proof.
  intros Hvalid.
  destruct (init_run version properties w Hvalid)
    as (self0 & w0 & _ & _ & Hver & _ & _ & Hlook & _ & Hrun).
  assert (∃ self w', construct version properties w = (Return self, w')
            ∧ DataNode.version self = DataNode.version self0
            ∧ version_lookups w' = version_lookups w0)
    as (self & w' & Hdone & Hv' & Hl').
  { simpl in Hrun. destruct (negb _ && negb _).
    - rewrite write_run in Hrun. by eexists _, _.
    - by exists self0, w0. }
  exists self, w'. split; [exact Hdone|]. rewrite Hv', Hl', Hver, Hlook.
  destruct version as [v|]; simpl.
  - destruct (String.eqb_spec v "") as [->|Hne]; simpl.
    + right. auto.
    + left. by exists v.
  - right. auto.
Qed.

(** C4: whatever the properties, the property map of the constructed node
    has no ["default_data"] key: it is the supplied map less that key. *)
Theorem default_data_not_stored
  (version : option string) (properties : option dict) (w : World) :
  valid_config_id config_id = true →
  ∃ self w',
    construct version properties w = (Return self, w')
    ∧ DataNode.properties self !! "default_data" = None
    ∧ DataNode.properties self = delete "default_data" (default ∅ properties).
Proof.
  intros Hvalid.
  destruct (init_run version properties w Hvalid)
    as (self0 & w0 & _ & _ & _ & Hprops & _ & _ & _ & Hrun).
  change InMemoryDataNode.__DEFAULT_DATA_VALUE with "default_data" in Hprops.
  simpl in Hrun. destruct (negb _ && negb _).
  - rewrite write_run in Hrun. eexists _, _. split; [exact Hrun|]. simpl.
    rewrite Hprops. split; [apply lookup_delete_eq|done].
  - exists self0, w0. split; [exact Hrun|].
    rewrite Hprops. split; [apply lookup_delete_eq|done].
Qed.

(** C9: when the properties hold ["default_data"] with the value [None],
    construction writes nothing, whether or not the storage has an entry
    for the node: the storage is the one it found and the edits are the
    supplied ones, so none when none was supplied. *)
Theorem no_seeding_with_None
  (version : option string) (props : dict) (w : World) :
  valid_config_id config_id = true →
  props !! "default_data" = Some PNone →
  ∃ self w',
    construct version (Some props) w = (Return self, w')
    ∧ DataNode.id self = node_id w
    ∧ in_memory_storage w' = in_memory_storage w
    ∧ DataNode.edits self = default [] edits.
Proof.
  intros Hvalid Hprops.
  destruct (init_run version (Some props) w Hvalid)
    as (self0 & w0 & Hid & Hed & _ & _ & Hsto & _ & _ & Hrun).
  simpl in Hrun. unfold dict_get in Hrun.
  change InMemoryDataNode.__DEFAULT_DATA_VALUE with "default_data" in Hrun.
  rewrite Hprops in Hrun. simpl in Hrun.
  by exists self0, w0.
Qed.

End Construction.

(** ** The backend operations *)

Section Backend.
Context `{Collaborators}.
Implicit Types (self other : DataNode.t) (X Y : pyval) (w : World).

(** [_write] always returns; it replaces the entry of the node's
    identifier and touches nothing else of the world. *)
Lemma _write_run self X w :
  InMemoryDataNode._write self X w =
  (Return tt, set_storage (insert (DataNode.id self) X) w).
Proof. reflexivity. Qed.

(** [_read] always returns and leaves the world as it is. *)
Lemma _read_run self w :
  InMemoryDataNode._read self w =
  (Return (dict_get (in_memory_storage w) (DataNode.id self)), w).
Proof. reflexivity. Qed.

(** C5: [_write(X)] followed at once by [_read()] returns [X]. *)
Theorem write_then_read self X w :
  (InMemoryDataNode._write self X;; InMemoryDataNode._read self) w
  = (Return X, set_storage (insert (DataNode.id self) X) w).
Proof.
  rewrite (bind_Return _ _ _ _ _ (_write_run self X w)), _read_run.
  unfold dict_get. simpl. by rewrite lookup_insert_eq.
Qed.

(** C6: when the storage has no entry for the node's identifier,
    [_read()] returns [None], the absent result, and does not raise; the
    world is left as it is. *)
Theorem read_of_absent_entry self w :
  in_memory_storage w !! DataNode.id self = None →
  InMemoryDataNode._read self w = (Return PNone, w).
Proof. intros Habs. rewrite _read_run. unfold dict_get. by rewrite Habs. Qed.

(** C7: [_write(X)] puts [X] at the node's identifier whatever was there,
    entry or none; after [_write(X)] then [_write(Y)], [_read()] returns
    [Y] and the storage is the one a single [_write(Y)] would leave. *)
Theorem write_overwrites self X Y w :
  (∃ w', InMemoryDataNode._write self X w = (Return tt, w')
         ∧ in_memory_storage w' = <[DataNode.id self := X]> (in_memory_storage w)
         ∧ in_memory_storage w' !! DataNode.id self = Some X)
  ∧ (InMemoryDataNode._write self X;; InMemoryDataNode._write self Y;;
     InMemoryDataNode._read self) w
    = (Return Y, set_storage (insert (DataNode.id self) Y) w).
Proof.
  split.
  - eexists. split; [apply _write_run|]. simpl. by rewrite lookup_insert_eq.
  - rewrite (bind_Return _ _ _ _ _ (_write_run self X w)).
    rewrite (bind_Return _ _ _ _ _ (_write_run self Y _)), _read_run.
    unfold dict_get, set_storage. simpl.
    by rewrite lookup_insert_eq, insert_insert_eq.
Qed.

(** C8: the two property hooks return their argument, so one after the
    other gives the dictionary back. *)
Theorem property_hooks_are_identity (d : dict) :
  InMemoryDataNode._serialize_datanode_properties d = d
  ∧ InMemoryDataNode._deserialize_datanode_model_properties d = d
  ∧ InMemoryDataNode._deserialize_datanode_model_properties
      (InMemoryDataNode._serialize_datanode_properties d) = d.
Proof. by unfold InMemoryDataNode._serialize_datanode_properties. Qed.

(** C10: a [_write] through one node leaves the entry, or the absence of
    an entry, at the identifier of a node with another identifier as it
    was; the storage differs from the earlier one at the writer's
    identifier only, and the rest of the world not at all. *)
Theorem write_leaves_other_entries self other X w :
  DataNode.id self ≠ DataNode.id other →
  ∃ w',
    InMemoryDataNode._write self X w = (Return tt, w')
    ∧ in_memory_storage w' !! DataNode.id other
      = in_memory_storage w !! DataNode.id other
    ∧ InMemoryDataNode._read other w'
      = (Return (dict_get (in_memory_storage w) (DataNode.id other)), w')
    ∧ in_memory_storage w' !! DataNode.id self = Some X
    ∧ delete (DataNode.id self) (in_memory_storage w')
      = delete (DataNode.id self) (in_memory_storage w)
    ∧ (latest_version w', version_lookups w', clock w', ids_generated w')
      = (latest_version w, version_lookups w, clock w, ids_generated w).
Proof.
  intros Hne. eexists. split; [apply _write_run|]. simpl.
  rewrite _read_run. unfold dict_get. simpl.
  rewrite lookup_insert_eq, (lookup_insert_ne _ _ _ _ Hne), delete_insert_eq.
  done.
Qed.

End Backend.

(** ** Concrete runs *)

Section Runs.
Import Fixtures.

Lemma seeding_on_fresh_identity_witness :
  valid_config_id "input_ds" = true
  ∧ default_props !! "default_data" = Some (PStr "In memory Data Source")
  ∧ in_memory_storage fresh_world !! "id_uio" = None
  ∧ ∃ self w',
      Fixtures.construct None None (Some default_props) fresh_world
      = (Return self, w')
      ∧ InMemoryDataNode.read self w'
        = (Return (PStr "In memory Data Source"), w')
      ∧ length (DataNode.edits self) = 1%nat.
Proof.
  repeat (split; [reflexivity|]).
  destruct (seeding_on_fresh_identity (H := collaborators)
              "input_ds" SCENARIO (Some "id_uio")
              (Some "my name") (Some "parent_id") None None None None false
              None default_props (PStr "In memory Data Source") fresh_world)
    as (self & w' & Hrun & _ & _ & Hread & _ & Hlen);
    [reflexivity | reflexivity | reflexivity | reflexivity |].
  exists self, w'. repeat split; assumption.
Defined.

(** C1 as stated fails: with ["default_data"] holding [None] and an empty
    storage, construction writes nothing and the edits stay empty; and
    with edits supplied, the seeding write makes them one longer, not of
    length one. *)
Lemma default_data_None_is_not_written :
  (none_props !! "default_data" = Some PNone
   ∧ in_memory_storage fresh_world !! "id_uio" = None
   ∧ ∃ self w',
       Fixtures.construct None None (Some none_props) fresh_world
       = (Return self, w')
       ∧ DataNode.id self = "id_uio"
       ∧ in_memory_storage w' !! "id_uio" = None
       ∧ length (DataNode.edits self) ≠ 1%nat)
  ∧ (default_props !! "default_data" = Some (PStr "In memory Data Source")
     ∧ in_memory_storage fresh_world !! "id_uio" = None
     ∧ ∃ self w',
         Fixtures.construct (Some [DataNode.mkEdit 1600000000 None ∅]) None
           (Some default_props) fresh_world
         = (Return self, w')
         ∧ DataNode.id self = "id_uio"
         ∧ length (DataNode.edits self) ≠ 1%nat).
Proof.
  split; (split; [reflexivity|]); (split; [reflexivity|]);
    eexists _, _; (split; [vm_compute; reflexivity|]); simpl; done.
Qed.

Lemma no_seeding_over_existing_entry_witness :
  valid_config_id "input_ds" = true
  ∧ default_props !! "default_data" = Some (PStr "In memory Data Source")
  ∧ in_memory_storage used_world !! "id_uio" = Some (PStr "earlier")
  ∧ ∃ self w',
      Fixtures.construct None None (Some default_props) used_world
      = (Return self, w')
      ∧ in_memory_storage w' !! DataNode.id self = Some (PStr "earlier")
      ∧ DataNode.edits self = [].
Proof.
  repeat (split; [reflexivity|]).
  destruct (no_seeding_over_existing_entry (H := collaborators)
              "input_ds" SCENARIO (Some "id_uio")
              (Some "my name") (Some "parent_id") None None None None false
              None default_props (PStr "In memory Data Source")
              (PStr "earlier") used_world)
    as (self & w' & Hrun & _ & _ & Hkept & Hed);
    [reflexivity | reflexivity | reflexivity |].
  exists self, w'. repeat split; assumption.
Defined.

Lemma version_resolution_witness :
  valid_config_id "input_ds" = true
  ∧ ∃ self w',
      Fixtures.construct None (Some "2.3") None fresh_world = (Return self, w')
      ∧ ((∃ v, Some "2.3" = Some v ∧ v ≠ ""
               ∧ DataNode.version self = v
               ∧ version_lookups w' = version_lookups fresh_world)
         ∨ ((Some "2.3" = None ∨ Some "2.3" = Some "")
            ∧ DataNode.version self = latest_version fresh_world
            ∧ version_lookups w' = S (version_lookups fresh_world))).
Proof.
  split; [reflexivity|].
  apply (version_resolution (H := collaborators)
           "input_ds" SCENARIO (Some "id_uio")
           (Some "my name") (Some "parent_id") None None None None false
           (Some "2.3") None fresh_world).
  reflexivity.
Defined.

(** C3 as stated fails: the empty string is a version string, yet for it
    the version manager is asked and the node gets the version the
    manager reports. *)
Lemma empty_version_is_looked_up :
  ∃ self w',
    Fixtures.construct None (Some "") None fresh_world = (Return self, w')
    ∧ DataNode.version self = "1.0"
    ∧ DataNode.version self ≠ ""
    ∧ version_lookups fresh_world = 0%nat
    ∧ version_lookups w' = 1%nat.
Proof.
  eexists _, _. split; [vm_compute; reflexivity|]. simpl. done.
Qed.

Lemma default_data_not_stored_witness :
  valid_config_id "input_ds" = true
  ∧ ∃ self w',
      Fixtures.construct None None (Some default_props) fresh_world
      = (Return self, w')
      ∧ DataNode.properties self !! "default_data" = None
      ∧ DataNode.properties self = delete "default_data" default_props.
Proof.
  split; [reflexivity|].
  apply (default_data_not_stored (H := collaborators)
           "input_ds" SCENARIO (Some "id_uio")
           (Some "my name") (Some "parent_id") None None None None false
           None (Some default_props) fresh_world).
  reflexivity.
Defined.

Lemma no_seeding_with_None_witness :
  valid_config_id "input_ds" = true
  ∧ none_props !! "default_data" = Some PNone
  ∧ ∃ self w',
      Fixtures.construct None None (Some none_props) fresh_world
      = (Return self, w')
      ∧ in_memory_storage w' = ∅
      ∧ DataNode.edits self = [].
Proof.
  repeat (split; [reflexivity|]).
  destruct (no_seeding_with_None (H := collaborators)
              "input_ds" SCENARIO (Some "id_uio")
              (Some "my name") (Some "parent_id") None None None None false
              None none_props fresh_world)
    as (self & w' & Hrun & _ & Hsto & Hed);
    [reflexivity | reflexivity |].
  exists self, w'. repeat split; assumption.
Defined.

Lemma read_of_absent_entry_witness :
  in_memory_storage fresh_world !! DataNode.id input_ds = None
  ∧ InMemoryDataNode._read input_ds fresh_world = (Return PNone, fresh_world).
Proof.
  split; [reflexivity|].
  apply (read_of_absent_entry input_ds fresh_world). reflexivity.
Defined.

Lemma write_leaves_other_entries_witness :
  DataNode.id output_ds ≠ DataNode.id input_ds
  ∧ ∃ w',
      InMemoryDataNode._write output_ds (PInt 7) used_world = (Return tt, w')
      ∧ in_memory_storage w' !! "id_uio" = Some (PStr "earlier")
      ∧ in_memory_storage w' !! "id_out" = Some (PInt 7).
Proof.
  assert (DataNode.id output_ds ≠ DataNode.id input_ds) as Hne
    by (simpl; discriminate).
  split; [exact Hne|].
  destruct (write_leaves_other_entries output_ds input_ds (PInt 7) used_world Hne)
    as (w' & Hrun & Hother & _ & Hself & _).
  exists w'. repeat split; assumption.
Defined.

End Runs.

(** * Further properties of the constructor *)

Lemma bind_Raise {A B : Type} (m : Py A) (f : A → Py B) (w w' : World) (e : exn) :
  m w = (Raise e, w') → (m ≫= f) w = (Raise e, w').
Proof. intros Hm. unfold mbind, Py_bind. by rewrite Hm. Qed.

(** Evaluating [version or _get_latest_version()] returns, and leaves the
    storage, the clock and the count of identifiers as they were. *)
Lemma or_else_frame (version : option string) (w : World) :
  ∃ v w1,
    or_else version _get_latest_version w = (Return v, w1)
    ∧ in_memory_storage w1 = in_memory_storage w
    ∧ clock w1 = clock w
    ∧ ids_generated w1 = ids_generated w.
Proof.
  rewrite or_else_latest. destruct (truthy version); by eexists _, _.
Qed.

Lemma dict_get_delete (d : dict) (k : string) : dict_get (delete k d) k = PNone.
Proof. unfold dict_get. by rewrite lookup_delete_eq. Qed.

Lemma set_storage_id (w : World) (i : string) (v : pyval) :
  in_memory_storage w !! i = Some v → set_storage (insert i v) w = w.
Proof.
  intros Hi. destruct w as [m lv n c g]. unfold set_storage. simpl in *.
  by rewrite insert_id.
Qed.

Section Seeding.
Context `{Collaborators}.
Variables (config_id : string) (scope : Scope) (id : option DataNodeId).
Variables (name owner_id : option string) (parent_ids : option (gset string)).
Variables (last_edit_date : option Z) (edits : option (list DataNode.Edit)).
Variables (validity_period : option Z) (edit_in_progress : bool).

#[local] Abbreviation construct version properties :=
  (InMemoryDataNode.__init__ config_id scope id name owner_id parent_ids
     last_edit_date edits version validity_period edit_in_progress properties).

#[local] Abbreviation base version kwargs :=
  (DataNode.__init__ config_id scope id name owner_id parent_ids
     last_edit_date edits version validity_period edit_in_progress kwargs).

#[local] Abbreviation node_id w := (DataNode.id_at config_id id w).

#[local] Abbreviation key := InMemoryDataNode.__DEFAULT_DATA_VALUE.

(** Whenever the base constructor returns, the node has the identifier
    [DataNode.id_at], and the storage and the clock are as before. *)
Lemma base_init_inv (version : string) (kwargs : dict) (w w0 : World)
  (self0 : DataNode.t) :
  base version kwargs w = (Return self0, w0) →
  DataNode.id self0 = node_id w
  ∧ DataNode.edits self0 = default [] edits
  ∧ DataNode.properties self0 = kwargs
  ∧ in_memory_storage w0 = in_memory_storage w
  ∧ clock w0 = clock w.
Proof.
  unfold DataNode.__init__. destruct (valid_config_id config_id); [|done].
  destruct id as [i|]; intros [= <- <-]; done.
Qed.

(** The constructor when the guard of line 92 fails: it returns the node
    of the base constructor, and the storage is the one it found. *)
Lemma init_skips (version : option string) (properties : option dict) (w : World) :
  valid_config_id config_id = true →
  is_None (dict_get (default ∅ properties) key) = true
  ∨ dict_contains (in_memory_storage w) (node_id w) = true →
  ∃ self w',
    construct version properties w = (Return self, w')
    ∧ DataNode.id self = node_id w
    ∧ DataNode.edits self = default [] edits
    ∧ DataNode.properties self = delete key (default ∅ properties)
    ∧ in_memory_storage w' = in_memory_storage w
    ∧ clock w' = clock w.
Proof.
  intros Hvalid Hguard.
  destruct (init_run config_id scope id name owner_id parent_ids
              last_edit_date edits validity_period edit_in_progress
              version properties w Hvalid)
    as (self0 & w0 & Hid & Hed & _ & Hprops & Hsto & _ & Hclk & Hrun).
  simpl in Hrun.
  assert (negb (is_None (dict_get (default ∅ properties) key))
          && negb (dict_contains (in_memory_storage w) (node_id w)) = false)
    as Hoff.
  { destruct Hguard as [-> | ->]; [done | apply andb_false_r]. }
  rewrite Hoff in Hrun. by exists self0, w0.
Qed.

(** The constructor when the guard of line 92 holds: it returns the node
    of the base constructor after one [write] of the default. *)
Lemma init_seeds (version : option string) (properties : option dict) (w : World) :
  valid_config_id config_id = true →
  is_None (dict_get (default ∅ properties) key) = false →
  in_memory_storage w !! node_id w = None →
  ∃ self0 w0,
    construct version properties w
    = (Return (DataNode.track_edit self0 (clock w) None ∅),
       set_storage (insert (node_id w) (dict_get (default ∅ properties) key)) w0)
    ∧ DataNode.id self0 = node_id w
    ∧ DataNode.edits self0 = default [] edits
    ∧ DataNode.properties self0 = delete key (default ∅ properties)
    ∧ in_memory_storage w0 = in_memory_storage w
    ∧ clock w0 = clock w.
Proof.
  intros Hvalid Hdv Hfree.
  destruct (init_run config_id scope id name owner_id parent_ids
              last_edit_date edits validity_period edit_in_progress
              version properties w Hvalid)
    as (self0 & w0 & Hid & Hed & _ & Hprops & Hsto & _ & Hclk & Hrun).
  simpl in Hrun.
  rewrite Hdv, (dict_contains_None _ _ Hfree), write_run, Hid, Hclk in Hrun.
  by exists self0, w0.
Qed.

(** X1: when the properties are absent or lack ["default_data"],
    construction writes nothing: the storage is the one it found, the
    edits are the supplied ones, and the node keeps the whole property
    map. *)
Theorem construction_without_default_writes_nothing
  (version : option string) (properties : option dict) (w : World) :
  valid_config_id config_id = true →
  default ∅ properties !! "default_data" = None →
  ∃ self w',
    construct version properties w = (Return self, w')
    ∧ in_memory_storage w' = in_memory_storage w
    ∧ DataNode.edits self = default [] edits
    ∧ DataNode.properties self = default ∅ properties.
Proof.
  intros Hvalid Hnokey.
  destruct (init_skips version properties w Hvalid)
    as (self & w' & Hrun & _ & Hed & Hprops & Hsto & _).
  { left. unfold dict_get. change key with "default_data". by rewrite Hnokey. }
  exists self, w'. rewrite Hprops. change key with "default_data".
  by rewrite (delete_id _ _ Hnokey).
Qed.

(** X2: whatever the arguments, a construction changes the storage at
    the node's own identifier at most: every other entry, present or
    absent, is as it was. *)
Theorem construction_touches_own_entry_only
  (version : option string) (properties : option dict) (w : World) :
  valid_config_id config_id = true →
  ∃ self w',
    construct version properties w = (Return self, w')
    ∧ DataNode.id self = node_id w
    ∧ delete (DataNode.id self) (in_memory_storage w')
      = delete (DataNode.id self) (in_memory_storage w).
Proof.
  intros Hvalid.
  destruct (is_None (dict_get (default ∅ properties) key)) eqn:Hdv;
    [|destruct (in_memory_storage w !! node_id w) as [old|] eqn:Hold].
  - destruct (init_skips version properties w Hvalid (or_introl Hdv))
      as (self & w' & Hrun & Hid & _ & _ & Hsto & _).
    exists self, w'. by rewrite Hsto.
  - destruct (init_skips version properties w Hvalid)
      as (self & w' & Hrun & Hid & _ & _ & Hsto & _).
    { right. apply dict_contains_Some. by rewrite Hold. }
    exists self, w'. by rewrite Hsto.
  - destruct (init_seeds version properties w Hvalid Hdv Hold)
      as (self0 & w0 & Hrun & Hid & _ & _ & Hsto & _).
    eexists _, _. split; [exact Hrun|]. simpl.
    rewrite Hid, Hsto. split; [done|apply delete_insert_eq].
Qed.

(** X3: after a construction whose properties hold ["default_data"] with
    a value [V] other than [None], the storage has an entry for the
    node: the value that was there, or else [V]; [_read()] returns it. *)
Theorem default_leaves_an_entry
  (version : option string) (props : dict) (V : pyval) (w : World) :
  valid_config_id config_id = true →
  props !! "default_data" = Some V →
  is_None V = false →
  ∃ self w',
    construct version (Some props) w = (Return self, w')
    ∧ in_memory_storage w' !! DataNode.id self
      = Some (default V (in_memory_storage w !! node_id w))
    ∧ InMemoryDataNode._read self w'
      = (Return (default V (in_memory_storage w !! node_id w)), w').
Proof.
  intros Hvalid Hprops HV.
  assert (dict_get (default ∅ (Some props)) key = V) as Hdv.
  { unfold dict_get. simpl. change key with "default_data". by rewrite Hprops. }
  destruct (in_memory_storage w !! node_id w) as [old|] eqn:Hold.
  - destruct (init_skips version (Some props) w Hvalid)
      as (self & w' & Hrun & Hid & _ & _ & Hsto & _).
    { right. apply dict_contains_Some. by rewrite Hold. }
    exists self, w'. split; [exact Hrun|].
    unfold InMemoryDataNode._read, gets, dict_get. by rewrite Hid, Hsto, Hold.
  - destruct (init_seeds version (Some props) w Hvalid)
      as (self0 & w0 & Hrun & Hid & _ & _ & Hsto & _); [by rewrite Hdv|done|].
    rewrite Hdv in Hrun. eexists _, _. split; [exact Hrun|].
    unfold InMemoryDataNode._read, gets, dict_get. simpl.
    by rewrite Hid, lookup_insert_eq.
Qed.

(** X4: a seeding construction is a construction without the default
    followed by [write(V)]: with ["default_data"] holding a [V] other
    than [None] and no entry for the node, the constructor gives the very
    node and world that constructing from the properties less that key
    and then calling [write(V)] gives; when the base constructor raises,
    both raise alike. *)
Theorem seeding_is_construction_then_write
  (version : option string) (props : dict) (V : pyval) (w : World) :
  props !! "default_data" = Some V →
  is_None V = false →
  in_memory_storage w !! node_id w = None →
  construct version (Some props) w
  = (construct version (Some (delete "default_data" props))
     ≫= λ self, InMemoryDataNode.write self V None ∅) w.
Proof.
  intros Hprops HV Hfree.
  destruct (or_else_frame version w) as (v & w1 & Hv & Hsto1 & _ & Hids1).
  unfold InMemoryDataNode.__init__, dict_pop. simpl.
  change key with "default_data".
  rewrite delete_delete_eq, dict_get_delete.
  unfold dict_get. rewrite Hprops. simpl. rewrite HV. simpl.
  unfold mbind, Py_bind. rewrite Hv.
  destruct (base v (delete "default_data" props) w1) as [[self0|e] w0] eqn:Hb;
    [|reflexivity].
  destruct (base_init_inv _ _ _ _ _ Hb) as (Hid & _ & _ & Hsto & _).
  unfold gets. rewrite Hid, Hsto, Hsto1. unfold DataNode.id_at. rewrite Hids1.
  fold (node_id w). by rewrite (dict_contains_None _ _ Hfree).
Qed.

(** X5: a default that is not used leaves no trace: when
    ["default_data"] holds [None], or the storage already has an entry
    for the node, the constructor gives the very node and world that
    constructing from the properties less that key gives. *)
Theorem unused_default_leaves_no_trace
  (version : option string) (props : dict) (V : pyval) (w : World) :
  props !! "default_data" = Some V →
  is_None V = true ∨ dict_contains (in_memory_storage w) (node_id w) = true →
  construct version (Some props) w
  = construct version (Some (delete "default_data" props)) w.
Proof.
  intros Hprops Hguard.
  destruct (or_else_frame version w) as (v & w1 & Hv & Hsto1 & _ & Hids1).
  unfold InMemoryDataNode.__init__, dict_pop. simpl.
  change key with "default_data".
  rewrite delete_delete_eq, dict_get_delete.
  unfold dict_get. rewrite Hprops. simpl.
  unfold mbind, Py_bind. rewrite Hv.
  destruct (base v (delete "default_data" props) w1) as [[self0|e] w0] eqn:Hb;
    [|reflexivity].
  destruct (base_init_inv _ _ _ _ _ Hb) as (Hid & _ & _ & Hsto & _).
  unfold gets. rewrite Hid, Hsto, Hsto1. unfold DataNode.id_at. rewrite Hids1.
  fold (node_id w).
  destruct Hguard as [-> | ->]; [done|]. by rewrite andb_false_r.
Qed.

(** X7: a stored [None] and a missing entry read alike, yet only the
    missing entry lets a construction seed: after [_write(None)] through
    a node of the same identifier, a construction with a default [V]
    writes nothing, and [_read()] still returns [None]. *)
Theorem stored_None_blocks_seeding
  (other : DataNode.t) (version : option string) (props : dict) (V : pyval)
  (w : World) :
  valid_config_id config_id = true →
  props !! "default_data" = Some V →
  DataNode.id other = node_id w →
  ∃ self w',
    (InMemoryDataNode._write other PNone;; construct version (Some props)) w
    = (Return self, w')
    ∧ in_memory_storage w' = <[node_id w := PNone]> (in_memory_storage w)
    ∧ InMemoryDataNode._read self w' = (Return PNone, w')
    ∧ DataNode.edits self = default [] edits.
Proof.
  intros Hvalid Hprops Hsame.
  rewrite (bind_Return _ _ _ _ _ (_write_run other PNone w)).
  set (w1 := set_storage _ w).
  assert (in_memory_storage w1 !! node_id w1 = Some PNone) as Hthere.
  { unfold w1. simpl. rewrite Hsame. apply lookup_insert_eq. }
  destruct (init_skips version (Some props) w1 Hvalid)
    as (self & w' & Hrun & Hid & Hed & _ & Hsto & _).
  { right. apply dict_contains_Some. by rewrite Hthere. }
  exists self, w'. split; [exact Hrun|]. split; [|split; [|exact Hed]].
  - rewrite Hsto. unfold w1. simpl. by rewrite Hsame.
  - unfold InMemoryDataNode._read, gets, dict_get. by rewrite Hid, Hsto, Hthere.
Qed.

(** X13: a construction never removes or replaces a stored value,
    whether it returns or raises: every entry of the storage it found is
    in the storage it leaves. *)
Theorem construction_keeps_every_entry
  (version : option string) (properties : option dict) (w : World) :
  in_memory_storage w ⊆ in_memory_storage (construct version properties w).2.
Proof.
  destruct (valid_config_id config_id) eqn:Hvalid.
  - destruct (is_None (dict_get (default ∅ properties) key)) eqn:Hdv;
      [|destruct (in_memory_storage w !! node_id w) as [old|] eqn:Hold].
    + destruct (init_skips version properties w Hvalid (or_introl Hdv))
        as (self & w' & Hrun & _ & _ & _ & Hsto & _).
      rewrite Hrun. simpl. by rewrite Hsto.
    + destruct (init_skips version properties w Hvalid)
        as (self & w' & Hrun & _ & _ & _ & Hsto & _).
      { right. apply dict_contains_Some. by rewrite Hold. }
      rewrite Hrun. simpl. by rewrite Hsto.
    + destruct (init_seeds version properties w Hvalid Hdv Hold)
        as (self0 & w0 & Hrun & _ & _ & _ & Hsto & _).
      rewrite Hrun. simpl. rewrite Hsto. by apply insert_subseteq.
  - destruct (init_invalid config_id scope id name owner_id parent_ids
                last_edit_date edits validity_period edit_in_progress
                version properties w Hvalid)
      as (w' & Hrun & Hsto).
    rewrite Hrun. simpl. by rewrite Hsto.
Qed.

End Seeding.

Section Twice.
Context `{Collaborators}.
Variables (config_id1 config_id2 : string) (scope1 scope2 : Scope).
Variables (id1 id2 : option DataNodeId).
Variables (name1 name2 owner_id1 owner_id2 : option string).
Variables (parent_ids1 parent_ids2 : option (gset string)).
Variables (last_edit_date1 last_edit_date2 : option Z).
Variables (edits1 edits2 : option (list DataNode.Edit)).
Variables (version1 version2 : option string).
Variables (validity_period1 validity_period2 : option Z).
Variables (edit_in_progress1 edit_in_progress2 : bool).

#[local] Abbreviation first_at id properties :=
  (InMemoryDataNode.__init__ config_id1 scope1 id name1 owner_id1 parent_ids1
     last_edit_date1 edits1 version1 validity_period1 edit_in_progress1
     properties).

#[local] Abbreviation second_at id properties :=
  (InMemoryDataNode.__init__ config_id2 scope2 id name2 owner_id2 parent_ids2
     last_edit_date2 edits2 version2 validity_period2 edit_in_progress2
     properties).

(** X6: of two constructions with the same identifier, one after the
    other, only the first seeds: when the storage had no entry and the
    first default [V1] is not [None], the second default is ignored,
    whatever it is; the storage holds [V1], both nodes read [V1], and the
    second node's edits are the supplied ones. *)
Theorem same_identifier_seeds_once
  (i : DataNodeId) (props1 props2 : dict) (V1 V2 : pyval) (w : World) :
  valid_config_id config_id1 = true →
  valid_config_id config_id2 = true →
  props1 !! "default_data" = Some V1 →
  is_None V1 = false →
  props2 !! "default_data" = Some V2 →
  in_memory_storage w !! i = None →
  ∃ a b w',
    (a ← first_at (Some i) (Some props1);
     b ← second_at (Some i) (Some props2);
     mret (a, b)) w
    = (Return (a, b), w')
    ∧ in_memory_storage w' = <[i := V1]> (in_memory_storage w)
    ∧ InMemoryDataNode._read a w' = (Return V1, w')
    ∧ InMemoryDataNode._read b w' = (Return V1, w')
    ∧ DataNode.edits b = default [] edits2.
Proof.
  intros Hvalid1 Hvalid2 Hprops1 HV1 Hprops2 Hfree.
  destruct (init_seeds config_id1 scope1 (Some i) name1 owner_id1 parent_ids1
              last_edit_date1 edits1 validity_period1 edit_in_progress1
              version1 (Some props1) w Hvalid1)
    as (self0 & w0 & Hrun1 & Hid1 & _ & _ & Hsto0 & _); [|done|].
  { unfold dict_get. simpl.
    change InMemoryDataNode.__DEFAULT_DATA_VALUE with "default_data".
    by rewrite Hprops1. }
  simpl in Hrun1. unfold dict_get in Hrun1.
  change InMemoryDataNode.__DEFAULT_DATA_VALUE with "default_data" in Hrun1.
  rewrite Hprops1 in Hrun1. simpl in Hrun1.
  set (w1 := set_storage (insert i V1) w0) in Hrun1.
  assert (in_memory_storage w1 !! i = Some V1) as Hthere
    by apply lookup_insert_eq.
  destruct (init_skips config_id2 scope2 (Some i) name2 owner_id2 parent_ids2
              last_edit_date2 edits2 validity_period2 edit_in_progress2
              version2 (Some props2) w1 Hvalid2)
    as (b & w' & Hrun2 & Hid2 & Hed2 & _ & Hsto' & _).
  { right. apply dict_contains_Some.
    change (DataNode.id_at config_id2 (Some i) w1) with i. by rewrite Hthere. }
  eexists _, b, w'. split.
  { rewrite (bind_Return _ _ _ _ _ Hrun1), (bind_Return _ _ _ _ _ Hrun2).
    reflexivity. }
  change (DataNode.id self0 = i) in Hid1. change (DataNode.id b = i) in Hid2.
  unfold InMemoryDataNode._read, gets, dict_get. simpl.
  rewrite Hid1, Hid2, Hsto', Hthere. unfold w1. simpl. by rewrite Hsto0.
Qed.


End Twice.

(** * Further properties of the backend operations *)

Section Sharing.
Context `{Collaborators}.
Implicit Types (self a b : DataNode.t) (X Y : pyval) (w : World).

(** X8: writes through nodes of different identifiers commute: either
    order leaves the same world. *)
Theorem writes_to_distinct_identifiers_commute a b X Y w :
  DataNode.id a ≠ DataNode.id b →
  (InMemoryDataNode._write a X;; InMemoryDataNode._write b Y) w
  = (InMemoryDataNode._write b Y;; InMemoryDataNode._write a X) w.
Proof.
  intros Hne.
  rewrite (bind_Return _ _ _ _ _ (_write_run a X w)), _write_run.
  rewrite (bind_Return _ _ _ _ _ (_write_run b Y w)), _write_run.
  unfold set_storage. simpl. by rewrite (insert_insert_ne _ _ _ _ _ Hne).
Qed.

(** X9: the backend knows a node by its identifier alone: two node
    objects of one identifier, however else they differ, read the same
    value and write the same entry, so what one writes the other reads. *)
Theorem nodes_of_one_identifier_share_the_entry a b X w :
  DataNode.id a = DataNode.id b →
  InMemoryDataNode._read a w = InMemoryDataNode._read b w
  ∧ InMemoryDataNode._write a X w = InMemoryDataNode._write b X w
  ∧ ∃ w',
      (InMemoryDataNode._write a X;; InMemoryDataNode._read b) w
      = (Return X, w')
      ∧ in_memory_storage w' = <[DataNode.id b := X]> (in_memory_storage w).
Proof.
  intros Hsame. rewrite !_read_run, !_write_run, Hsame.
  split; [done|]. split; [done|].
  exists (set_storage (insert (DataNode.id b) X) w). split; [|reflexivity].
  rewrite (bind_Return _ _ _ _ _ (_write_run a X w)), _read_run, Hsame.
  unfold dict_get. simpl. by rewrite lookup_insert_eq.
Qed.

(** X10: writing back what [_read()] returned changes nothing when the
    node has an entry. *)
Theorem write_back_of_present_entry self X w :
  in_memory_storage w !! DataNode.id self = Some X →
  (data ← InMemoryDataNode._read self; InMemoryDataNode._write self data) w
  = (Return (), w).
Proof.
  intros Hthere.
  rewrite (bind_Return _ _ _ _ _ (_read_run self w)), _write_run.
  unfold dict_get. rewrite Hthere. simpl. by rewrite (set_storage_id _ _ _ Hthere).
Qed.

(** X11: writing back what [_read()] returned is not neutral when the
    node has no entry: the [None] that stood for the absence becomes a
    stored value, so the identifier is now a key of the storage, while
    [_read()] returns [None] as before and every other entry is as it
    was. *)
Theorem write_back_of_absent_entry self w :
  in_memory_storage w !! DataNode.id self = None →
  ∃ w',
    (data ← InMemoryDataNode._read self; InMemoryDataNode._write self data) w
    = (Return (), w')
    ∧ dict_contains (in_memory_storage w) (DataNode.id self) = false
    ∧ dict_contains (in_memory_storage w') (DataNode.id self) = true
    ∧ in_memory_storage w' = <[DataNode.id self := PNone]> (in_memory_storage w)
    ∧ InMemoryDataNode._read self w' = (Return PNone, w').
Proof.
  intros Habs.
  rewrite (bind_Return _ _ _ _ _ (_read_run self w)), _write_run.
  unfold dict_get. rewrite Habs. simpl. eexists. split; [reflexivity|].
  rewrite _read_run. unfold dict_contains, dict_get. simpl.
  by rewrite Habs, lookup_insert_eq.
Qed.

End Sharing.

(** ** More concrete runs *)

Section MoreRuns.
Import Fixtures.

Lemma construction_without_default_writes_nothing_witness :
  valid_config_id "input_ds" = true
  ∧ default ∅ (None : option dict) !! "default_data" = None
  ∧ ∃ self w',
      Fixtures.construct None (Some "2.3") None used_world = (Return self, w')
      ∧ in_memory_storage w' = in_memory_storage used_world
      ∧ DataNode.edits self = []
      ∧ DataNode.properties self = ∅.
Proof.
  repeat (split; [reflexivity|]).
  apply (construction_without_default_writes_nothing (H := collaborators)
           "input_ds" SCENARIO (Some "id_uio")
           (Some "my name") (Some "parent_id") None None None None false
           (Some "2.3") None used_world); reflexivity.
Defined.

Lemma construction_touches_own_entry_only_witness :
  valid_config_id "input_ds" = true
  ∧ ∃ self w',
      Fixtures.construct None None (Some default_props) fresh_world
      = (Return self, w')
      ∧ DataNode.id self = "id_uio"
      ∧ delete (DataNode.id self) (in_memory_storage w')
        = delete (DataNode.id self) (in_memory_storage fresh_world).
Proof.
  split; [reflexivity|].
  apply (construction_touches_own_entry_only (H := collaborators)
           "input_ds" SCENARIO (Some "id_uio")
           (Some "my name") (Some "parent_id") None None None None false
           None (Some default_props) fresh_world); reflexivity.
Defined.

Lemma default_leaves_an_entry_witness :
  valid_config_id "input_ds" = true
  ∧ csv_props !! "default_data" = Some (PInt 42)
  ∧ ∃ self w',
      Fixtures.construct None None (Some csv_props) used_world
      = (Return self, w')
      ∧ in_memory_storage w' !! DataNode.id self = Some (PStr "earlier")
      ∧ InMemoryDataNode._read self w' = (Return (PStr "earlier"), w').
Proof.
  repeat (split; [reflexivity|]).
  apply (default_leaves_an_entry (H := collaborators)
           "input_ds" SCENARIO (Some "id_uio")
           (Some "my name") (Some "parent_id") None None None None false
           None csv_props (PInt 42) used_world); reflexivity.
Defined.

Lemma seeding_is_construction_then_write_witness :
  default_props !! "default_data" = Some (PStr "In memory Data Source")
  ∧ in_memory_storage fresh_world !! "id_uio" = None
  ∧ Fixtures.construct None None (Some default_props) fresh_world
    = (Fixtures.construct None None (Some (delete "default_data" default_props))
       ≫= λ self,
         InMemoryDataNode.write self (PStr "In memory Data Source") None ∅)
        fresh_world.
Proof.
  repeat (split; [reflexivity|]).
  apply (seeding_is_construction_then_write (H := collaborators)
           "input_ds" SCENARIO (Some "id_uio")
           (Some "my name") (Some "parent_id") None None None None false
           None default_props (PStr "In memory Data Source") fresh_world);
    reflexivity.
Defined.

Lemma unused_default_leaves_no_trace_witness :
  none_props !! "default_data" = Some PNone
  ∧ Fixtures.construct None None (Some none_props) fresh_world
    = Fixtures.construct None None (Some (delete "default_data" none_props))
        fresh_world.
Proof.
  split; [reflexivity|].
  apply (unused_default_leaves_no_trace (H := collaborators)
           "input_ds" SCENARIO (Some "id_uio")
           (Some "my name") (Some "parent_id") None None None None false
           None none_props PNone fresh_world); [reflexivity|].
  left. reflexivity.
Defined.

Lemma stored_None_blocks_seeding_witness :
  valid_config_id "input_ds" = true
  ∧ default_props !! "default_data" = Some (PStr "In memory Data Source")
  ∧ DataNode.id input_ds = "id_uio"
  ∧ ∃ self w',
      (InMemoryDataNode._write input_ds PNone;;
       Fixtures.construct None None (Some default_props)) fresh_world
      = (Return self, w')
      ∧ InMemoryDataNode._read self w' = (Return PNone, w')
      ∧ DataNode.edits self = [].
Proof.
  repeat (split; [reflexivity|]).
  destruct (stored_None_blocks_seeding (H := collaborators)
              "input_ds" SCENARIO (Some "id_uio")
              (Some "my name") (Some "parent_id") None None None None false
              input_ds None default_props (PStr "In memory Data Source")
              fresh_world)
    as (self & w' & Hrun & _ & Hread & Hed);
    [reflexivity | reflexivity | reflexivity |].
  exists self, w'. repeat split; assumption.
Defined.

Lemma same_identifier_seeds_once_witness :
  valid_config_id "input_ds" = true
  ∧ valid_config_id "output_ds" = true
  ∧ in_memory_storage fresh_world !! "id_uio" = None
  ∧ ∃ input output w',
      default_task_sources fresh_world = (Return (input, output), w')
      ∧ in_memory_storage w'
        = {[ "id_uio" := PStr "In memory Data Source" ]}
      ∧ InMemoryDataNode._read output w'
        = (Return (PStr "In memory Data Source"), w')
      ∧ DataNode.edits output = [].
Proof.
  repeat (split; [reflexivity|]).
  destruct (same_identifier_seeds_once (H := collaborators)
              "input_ds" "output_ds" SCENARIO SCENARIO
              (Some "my name") (Some "my name")
              (Some "parent_id") (Some "parent_id")
              None None None None None None None None None None false false
              "id_uio" default_props default_props
              (PStr "In memory Data Source") (PStr "In memory Data Source")
              fresh_world)
    as (a & b & w' & Hrun & Hsto & _ & Hread & Hed);
    [reflexivity | reflexivity | reflexivity | reflexivity | reflexivity
    | reflexivity |].
  exists a, b, w'. repeat split; assumption.
Defined.


Lemma writes_to_distinct_identifiers_commute_witness :
  DataNode.id input_ds ≠ DataNode.id output_ds
  ∧ (InMemoryDataNode._write input_ds (PInt 1);;
     InMemoryDataNode._write output_ds (PInt 2)) used_world
    = (InMemoryDataNode._write output_ds (PInt 2);;
       InMemoryDataNode._write input_ds (PInt 1)) used_world.
Proof.
  assert (DataNode.id input_ds ≠ DataNode.id output_ds) as Hne
    by (simpl; discriminate).
  split; [exact Hne|].
  apply (writes_to_distinct_identifiers_commute input_ds output_ds
           (PInt 1) (PInt 2) used_world Hne).
Defined.

Lemma nodes_of_one_identifier_share_the_entry_witness :
  DataNode.id input_ds = DataNode.id reloaded_ds
  ∧ ∃ w',
      (InMemoryDataNode._write input_ds (PInt 1);;
       InMemoryDataNode._read reloaded_ds) fresh_world
      = (Return (PInt 1), w').
Proof.
  split; [reflexivity|].
  destruct (nodes_of_one_identifier_share_the_entry input_ds reloaded_ds
              (PInt 1) fresh_world eq_refl)
    as (_ & _ & w' & Hrun & _).
  exists w'. exact Hrun.
Defined.

Lemma write_back_of_present_entry_witness :
  in_memory_storage used_world !! DataNode.id input_ds = Some (PStr "earlier")
  ∧ (data ← InMemoryDataNode._read input_ds;
     InMemoryDataNode._write input_ds data) used_world
    = (Return (), used_world).
Proof.
  split; [reflexivity|].
  apply (write_back_of_present_entry input_ds (PStr "earlier") used_world).
  reflexivity.
Defined.

Lemma write_back_of_absent_entry_witness :
  in_memory_storage fresh_world !! DataNode.id input_ds = None
  ∧ ∃ w',
      (data ← InMemoryDataNode._read input_ds;
       InMemoryDataNode._write input_ds data) fresh_world
      = (Return (), w')
      ∧ dict_contains (in_memory_storage fresh_world) "id_uio" = false
      ∧ dict_contains (in_memory_storage w') "id_uio" = true.
Proof.
  split; [reflexivity|].
  destruct (write_back_of_absent_entry input_ds fresh_world eq_refl)
    as (w' & Hrun & Hbefore & Hafter & _).
  exists w'. repeat split; assumption.
Defined.

End MoreRuns.
